(** * Distance / orientation controller of the TurtleBot AprilTag calibration

    Shallow embedding of [In PC/Controller.py] (class [Controller]) and the
    properties of its two subscriber callbacks.

    Modelling choices, all visible below:
    - sample values and velocities are rationals ([Q]); the source only
      subtracts, negates, compares and takes [min], [max] and [abs] of them.
      Non-finite samples are outside the model;
    - the object [self] is a record; every statement that writes to it is one
      [assign], and a callback returns, besides the final record, the list of
      all the records it went through, so that "the instant at which a flag
      is written" is an element of that list;
    - [simple_pid.PID] is an external library: the controller is written
      against the interface [PidController];
    - [publish] hands a [Twist] to the [cmd_vel] publisher: the record keeps
      the messages handed over so far; [destroy_node] is counted;
    - console output ([print]) is not modelled. *)

From Stdlib Require Import List Bool ZArith QArith Qabs Lia Lqa.
Import ListNotations.
Local Open Scope Q_scope.

(** ** Python built-ins used by the callbacks *)

Module Py.

Definition lt (a b : Q) : bool := negb (Qle_bool b a).

Definition le (a b : Q) : bool := Qle_bool a b.

Definition gt (a b : Q) : bool := lt b a.

(** [min(a, b)] keeps [a] unless [b < a]; [max(a, b)] keeps [a] unless
    [b > a]. *)
Definition min (a b : Q) : Q := if lt b a then b else a.

Definition max (a b : Q) : Q := if gt b a then b else a.

(** [abs] of a [bool]: the boolean is first read as the integer 0 or 1. *)
Definition abs_bool (b : bool) : Z := Z.abs (Z.b2z b).

(** Truth value of an integer in a condition. *)
Definition truthy (n : Z) : bool := negb (n =? 0)%Z.

End Py.

(** ** geometry_msgs *)

Module Msg.

Record Vector3 : Type := mkVector3 { x : Q; y : Q; z : Q }.

Record Twist : Type := mkTwist { linear : Vector3; angular : Vector3 }.

(** [Twist()]: every component is [0.0]. *)
Definition Vector3_new : Vector3 := mkVector3 0.0 0.0 0.0.

Definition Twist_new : Twist := mkTwist Vector3_new Vector3_new.

(** [twist.linear.x = v] *)
Definition set_linear_x (v : Q) (t : Twist) : Twist :=
  mkTwist (mkVector3 v (y (linear t)) (z (linear t))) (angular t).

(** [twist.angular.z = v] *)
Definition set_angular_z (v : Q) (t : Twist) : Twist :=
  mkTwist (linear t) (mkVector3 (x (angular t)) (y (angular t)) v).

End Msg.

(** ** The interface of [simple_pid.PID] used by the controller

    [PID_new kp ki kd setpoint] is the constructor call
    [PID(kp, ki, kd, setpoint=...)]; [PID_call p input] is [p(input)]: it
    returns the control output and the updated controller object. *)

Class PidController (PID : Type) : Type := {
  PID_new : Q -> Q -> Q -> Q -> PID;
  PID_call : PID -> Q -> Q * PID
}.

(** ** The attributes of [Controller] *)

Record Controller (PID : Type) : Type := mkController {
  time : list Z;
  distance_errors : list Q;
  orientation_errors : list Q;
  right_turns : Z;
  left_turns : Z;
  distance_condition_met : bool;
  angle_condition_met : bool;
  publisher_velocity : list Msg.Twist;
  pid_distance : PID;
  pid_orientation : PID;
  target_reached : bool;
  keyboard_interrupt_occurred : bool;
  angle_correct : bool;
  distance_correct : bool;
  destroy_node_calls : nat
}.

Arguments mkController {PID}.
Arguments time {PID}.
Arguments distance_errors {PID}.
Arguments orientation_errors {PID}.
Arguments right_turns {PID}.
Arguments left_turns {PID}.
Arguments distance_condition_met {PID}.
Arguments angle_condition_met {PID}.
Arguments publisher_velocity {PID}.
Arguments pid_distance {PID}.
Arguments pid_orientation {PID}.
Arguments target_reached {PID}.
Arguments keyboard_interrupt_occurred {PID}.
Arguments angle_correct {PID}.
Arguments distance_correct {PID}.
Arguments destroy_node_calls {PID}.

(** A message delivered by the executor to one of the two subscriptions. *)
Inductive Delivery : Type :=
| OnDistance (msg : Msg.Vector3)
| OnAngle (msg : Msg.Vector3).

(** The two lines [main] prints: ["Total Right Turns:"] and
    ["Total Left Turns:"], each with a counter. *)
Inductive Printed : Type :=
| Total_Right_Turns (n : Z)
| Total_Left_Turns (n : Z).

Section Model.

Context {PID : Type} `{PidController PID}.

Abbreviation Self := (Controller PID).

(** *** Attribute writes *)

Definition set_time (v : list Z) (s : Self) : Self :=
  mkController v (distance_errors s) (orientation_errors s) (right_turns s)
    (left_turns s) (distance_condition_met s) (angle_condition_met s)
    (publisher_velocity s) (pid_distance s) (pid_orientation s)
    (target_reached s) (keyboard_interrupt_occurred s) (angle_correct s)
    (distance_correct s) (destroy_node_calls s).

Definition set_distance_errors (v : list Q) (s : Self) : Self :=
  mkController (time s) v (orientation_errors s) (right_turns s)
    (left_turns s) (distance_condition_met s) (angle_condition_met s)
    (publisher_velocity s) (pid_distance s) (pid_orientation s)
    (target_reached s) (keyboard_interrupt_occurred s) (angle_correct s)
    (distance_correct s) (destroy_node_calls s).

Definition set_orientation_errors (v : list Q) (s : Self) : Self :=
  mkController (time s) (distance_errors s) v (right_turns s)
    (left_turns s) (distance_condition_met s) (angle_condition_met s)
    (publisher_velocity s) (pid_distance s) (pid_orientation s)
    (target_reached s) (keyboard_interrupt_occurred s) (angle_correct s)
    (distance_correct s) (destroy_node_calls s).

Definition set_right_turns (v : Z) (s : Self) : Self :=
  mkController (time s) (distance_errors s) (orientation_errors s) v
    (left_turns s) (distance_condition_met s) (angle_condition_met s)
    (publisher_velocity s) (pid_distance s) (pid_orientation s)
    (target_reached s) (keyboard_interrupt_occurred s) (angle_correct s)
    (distance_correct s) (destroy_node_calls s).

Definition set_left_turns (v : Z) (s : Self) : Self :=
  mkController (time s) (distance_errors s) (orientation_errors s)
    (right_turns s) v (distance_condition_met s) (angle_condition_met s)
    (publisher_velocity s) (pid_distance s) (pid_orientation s)
    (target_reached s) (keyboard_interrupt_occurred s) (angle_correct s)
    (distance_correct s) (destroy_node_calls s).

Definition set_publisher_velocity (v : list Msg.Twist) (s : Self) : Self :=
  mkController (time s) (distance_errors s) (orientation_errors s)
    (right_turns s) (left_turns s) (distance_condition_met s)
    (angle_condition_met s) v (pid_distance s) (pid_orientation s)
    (target_reached s) (keyboard_interrupt_occurred s) (angle_correct s)
    (distance_correct s) (destroy_node_calls s).

Definition set_pid_distance (v : PID) (s : Self) : Self :=
  mkController (time s) (distance_errors s) (orientation_errors s)
    (right_turns s) (left_turns s) (distance_condition_met s)
    (angle_condition_met s) (publisher_velocity s) v (pid_orientation s)
    (target_reached s) (keyboard_interrupt_occurred s) (angle_correct s)
    (distance_correct s) (destroy_node_calls s).

Definition set_pid_orientation (v : PID) (s : Self) : Self :=
  mkController (time s) (distance_errors s) (orientation_errors s)
    (right_turns s) (left_turns s) (distance_condition_met s)
    (angle_condition_met s) (publisher_velocity s) (pid_distance s) v
    (target_reached s) (keyboard_interrupt_occurred s) (angle_correct s)
    (distance_correct s) (destroy_node_calls s).

Definition set_target_reached (v : bool) (s : Self) : Self :=
  mkController (time s) (distance_errors s) (orientation_errors s)
    (right_turns s) (left_turns s) (distance_condition_met s)
    (angle_condition_met s) (publisher_velocity s) (pid_distance s)
    (pid_orientation s) v (keyboard_interrupt_occurred s) (angle_correct s)
    (distance_correct s) (destroy_node_calls s).

Definition set_angle_correct (v : bool) (s : Self) : Self :=
  mkController (time s) (distance_errors s) (orientation_errors s)
    (right_turns s) (left_turns s) (distance_condition_met s)
    (angle_condition_met s) (publisher_velocity s) (pid_distance s)
    (pid_orientation s) (target_reached s) (keyboard_interrupt_occurred s) v
    (distance_correct s) (destroy_node_calls s).

Definition set_distance_correct (v : bool) (s : Self) : Self :=
  mkController (time s) (distance_errors s) (orientation_errors s)
    (right_turns s) (left_turns s) (distance_condition_met s)
    (angle_condition_met s) (publisher_velocity s) (pid_distance s)
    (pid_orientation s) (target_reached s) (keyboard_interrupt_occurred s)
    (angle_correct s) v (destroy_node_calls s).

Definition set_destroy_node_calls (v : nat) (s : Self) : Self :=
  mkController (time s) (distance_errors s) (orientation_errors s)
    (right_turns s) (left_turns s) (distance_condition_met s)
    (angle_condition_met s) (publisher_velocity s) (pid_distance s)
    (pid_orientation s) (target_reached s) (keyboard_interrupt_occurred s)
    (angle_correct s) (distance_correct s) v.

(** *** Statements

    A piece of a method body maps the current [self] to a result, the final
    [self], and the successive values of [self], one per write, oldest
    first. *)

Definition M (A : Type) : Type := Self -> A * Self * list Self.

Definition ret {A : Type} (a : A) : M A := fun s => (a, s, []).

Definition bind {A B : Type} (m : M A) (k : A -> M B) : M B :=
  fun s =>
    let '(a, s1, l1) := m s in
    let '(b, s2, l2) := k a s1 in
    (b, s2, l1 ++ l2).

Definition get : M Self := fun s => (s, s, []).

Definition assign (f : Self -> Self) : M unit := fun s => (tt, f s, [f s]).

Notation "v <- m ;; k" := (bind m (fun v => k))
  (at level 61, m at next level, right associativity).
Notation "m ;; k" := (bind m (fun _ => k))
  (at level 61, right associativity).

(** [self.time.append(len(self.time))] *)
Definition append_time (s : Self) : Self :=
  set_time (time s ++ [Z.of_nat (length (time s))]) s.

(** [self.distance_errors.append(v)] and [self.orientation_errors.append(v)] *)
Definition append_distance_error (v : Q) (s : Self) : Self :=
  set_distance_errors (distance_errors s ++ [v]) s.

Definition append_orientation_error (v : Q) (s : Self) : Self :=
  set_orientation_errors (orientation_errors s ++ [v]) s.

(** [self.left_turns += 1] and [self.right_turns += 1] *)
Definition incr_left_turns (s : Self) : Self :=
  set_left_turns (left_turns s + 1)%Z s.

Definition incr_right_turns (s : Self) : Self :=
  set_right_turns (right_turns s + 1)%Z s.

(** The effect of [publish] on the publisher: one more message handed over. *)
Definition send (twist : Msg.Twist) (s : Self) : Self :=
  set_publisher_velocity (publisher_velocity s ++ [twist]) s.

(** The effect of [destroy_node] on the node. *)
Definition destroyed (s : Self) : Self :=
  set_destroy_node_calls (S (destroy_node_calls s)) s.

(** [self.publisher_velocity.publish(twist)] *)
Definition publish (twist : Msg.Twist) : M unit := assign (send twist).

(** [self.destroy_node()] *)
Definition destroy_node : M unit := assign destroyed.

(** [self.pid_distance(input)] and [self.pid_orientation(input)]: the call
    returns the control signal and updates the PID object held by [self]. *)
Definition call_pid_distance (input : Q) : M Q :=
  fun s =>
    let (u, p) := PID_call (pid_distance s) input in
    (u, set_pid_distance p s, [set_pid_distance p s]).

Definition call_pid_orientation (input : Q) : M Q :=
  fun s =>
    let (u, p) := PID_call (pid_orientation s) input in
    (u, set_pid_orientation p s, [set_pid_orientation p s]).

(** *** [Controller.__init__] *)

Definition init : Self :=
  {| time := [];
     distance_errors := [];
     orientation_errors := [];
     right_turns := 0%Z;
     left_turns := 0%Z;
     distance_condition_met := false;
     angle_condition_met := false;
     publisher_velocity := [];
     pid_distance := PID_new 1.0 0.2 0.0 6.0;
     pid_orientation := PID_new 0.5 0.1 0.5 0.0;
     target_reached := false;
     keyboard_interrupt_occurred := false;
     angle_correct := false;
     distance_correct := false;
     destroy_node_calls := 0%nat |}.

(** *** [Controller.check_target_reached] *)

Definition check_target_reached : M unit :=
  self <- get ;;
  if distance_correct self && angle_correct self then
    assign (set_target_reached true) ;;
    destroy_node
  else ret tt.

(** *** [Controller.distance_callback] *)

Definition distance_callback (msg : Msg.Vector3) : M unit :=
  self <- get ;;
  if negb (target_reached self) then
    let distance_variation := Msg.x msg in
    let distance_error := distance_variation - 13.0 in
    control_signal <- call_pid_distance distance_error ;;
    let control_signal := Py.max (Py.min control_signal 0.2) (- 0.2) in
    assign append_time ;;
    assign (append_distance_error distance_error) ;;
    let twist := Msg.Twist_new in
    twist <-
      (if Py.lt control_signal 0 || Py.gt distance_error 0.3 then
         let twist := Msg.set_linear_x control_signal twist in
         assign (set_distance_correct
                   (Py.lt 0 distance_error && Py.lt distance_error 0.3)) ;;
         self <- get ;;
         (if angle_correct self
             && (Py.lt 0 distance_error && Py.lt distance_error 0.3)
          then
            assign (set_target_reached true) ;;
            assign (set_angle_correct false) ;;
            destroy_node
          else ret tt) ;;
         ret twist
       else if Py.truthy (Py.abs_bool (Py.lt distance_error 0)) then
         assign (set_distance_correct false) ;;
         let twist := Msg.set_linear_x (- control_signal) twist in
         ret twist
       else ret twist) ;;
    publish twist
  else ret tt.

(** *** [Controller.angles_callback] *)

Definition angles_callback (msg : Msg.Vector3) : M unit :=
  self <- get ;;
  if negb (target_reached self) then
    let angle_variation := Msg.y msg in
    if Py.lt 0 (Qabs angle_variation) && Py.le (Qabs angle_variation) 0.055
    then
      let twist_angular_z := 0.0 in
      assign (append_orientation_error angle_variation) ;;
      let twist := Msg.set_angular_z twist_angular_z Msg.Twist_new in
      assign (set_angle_correct true) ;;
      publish twist
    else
      control_signal <- call_pid_orientation angle_variation ;;
      let control_signal := Py.max (Py.min control_signal 0.1) (- 0.1) in
      let twist_angular_z := - control_signal in
      assign (append_orientation_error angle_variation) ;;
      let twist := Msg.set_angular_z twist_angular_z Msg.Twist_new in
      (if Py.lt twist_angular_z 0.0 then
         assign incr_left_turns
       else if Py.gt twist_angular_z 0.0 then
         assign incr_right_turns
       else ret tt) ;;
      publish twist ;;
      assign (set_angle_correct false) ;;
      check_target_reached
  else ret tt.

(** *** The executor: [rclpy.spin] delivers messages one at a time *)

Definition dispatch (d : Delivery) : M unit :=
  match d with
  | OnDistance msg => distance_callback msg
  | OnAngle msg => angles_callback msg
  end.

Fixpoint spin (ds : list Delivery) : M unit :=
  match ds with
  | [] => ret tt
  | d :: rest => dispatch d ;; spin rest
  end.

(** Final [self] and list of the values of [self] after a piece of code. *)
Definition final {A : Type} (m : M A) (s : Self) : Self := snd (fst (m s)).

Definition path {A : Type} (m : M A) (s : Self) : list Self := snd (m s).

(** *** Observations on a run *)

(** The writes of a run: each pair is [self] before and after one write. *)
Fixpoint steps (prev : Self) (l : list Self) : list (Self * Self) :=
  match l with
  | [] => []
  | s :: rest => (prev, s) :: steps s rest
  end.

(** The write sets [target_reached] from [False] to [True]. *)
Definition rising (w : Self * Self) : bool :=
  negb (target_reached (fst w)) && target_reached (snd w).

(** The write is a [publish]: one more message was handed to [cmd_vel]. *)
Definition publishing (w : Self * Self) : bool :=
  (length (publisher_velocity (fst w))
   <? length (publisher_velocity (snd w)))%nat.

(** A [publish] executed while [target_reached] is already [True]. *)
Definition late_publishing (w : Self * Self) : bool :=
  target_reached (fst w) && publishing w.

Definition count_steps (f : Self * Self -> bool) (s : Self) (l : list Self)
  : nat :=
  length (filter f (steps s l)).

(** The messages a delivery hands to [cmd_vel] when it starts from [s]. *)
Definition issued (d : Delivery) (s : Self) : list Msg.Twist :=
  skipn (length (publisher_velocity s))
        (publisher_velocity (final (dispatch d) s)).

(** The dead band of the orientation loop, as tested on line 109. *)
Definition in_dead_band (v : Q) : bool :=
  Py.lt 0 (Qabs v) && Py.le (Qabs v) 0.055.

(** An orientation correction: an angle sample processed before termination
    that takes the non-dead-band branch. *)
Definition is_correction (d : Delivery) (s : Self) : bool :=
  match d with
  | OnAngle msg => negb (target_reached s) && negb (in_dead_band (Msg.y msg))
  | OnDistance _ => false
  end.

(** The commands issued by the orientation corrections of a run. *)
Fixpoint corrections (ds : list Delivery) (s : Self) : list Msg.Twist :=
  match ds with
  | [] => []
  | d :: rest =>
      (if is_correction d s then issued d s else [])
        ++ corrections rest (final (dispatch d) s)
  end.

(** The distance samples processed before termination. *)
Definition processed_distance (d : Delivery) (s : Self) : list Q :=
  match d with
  | OnDistance msg => if negb (target_reached s) then [Msg.x msg] else []
  | OnAngle _ => []
  end.

Fixpoint processed_distances (ds : list Delivery) (s : Self) : list Q :=
  match ds with
  | [] => []
  | d :: rest =>
      processed_distance d s
        ++ processed_distances rest (final (dispatch d) s)
  end.

(** Feeding a list of inputs to a PID object, one call after the other. *)
Definition feed (p : PID) (inputs : list Q) : PID :=
  fold_left (fun q input => snd (PID_call q input)) inputs p.

(** The angle samples processed before termination, and those among them
    that lie outside the dead band and are passed to the orientation PID. *)
Definition processed_angle (d : Delivery) (s : Self) : list Q :=
  match d with
  | OnAngle msg => if negb (target_reached s) then [Msg.y msg] else []
  | OnDistance _ => []
  end.

Fixpoint processed_angles (ds : list Delivery) (s : Self) : list Q :=
  match ds with
  | [] => []
  | d :: rest =>
      processed_angle d s ++ processed_angles rest (final (dispatch d) s)
  end.

Definition corrected_angle (d : Delivery) (s : Self) : list Q :=
  if is_correction d s then processed_angle d s else [].

Fixpoint corrected_angles (ds : list Delivery) (s : Self) : list Q :=
  match ds with
  | [] => []
  | d :: rest =>
      corrected_angle d s ++ corrected_angles rest (final (dispatch d) s)
  end.

(** *** [Controller.plot_data]

    The two calls [plt.plot(self.time, self.distance_errors)] and
    [plt.plot(self.time, self.orientation_errors)]: each series is the pair
    of the x values and the y values handed to [plot]. *)
Definition plot_data (s : Self) : (list Z * list Q) * (list Z * list Q) :=
  ((time s, distance_errors s), (time s, orientation_errors s)).

(** *** [main]

    [rclpy.spin] handles the deliveries [ds] and then returns, either
    normally or, when [interrupt] is set, by raising [KeyboardInterrupt],
    which [main] catches. The result is the controller at the end, the two
    lines printed, and the series plotted when [plot_data] is called. *)
Definition set_keyboard_interrupt_occurred (v : bool) (s : Self) : Self :=
  mkController (time s) (distance_errors s) (orientation_errors s)
    (right_turns s) (left_turns s) (distance_condition_met s)
    (angle_condition_met s) (publisher_velocity s) (pid_distance s)
    (pid_orientation s) (target_reached s) v (angle_correct s)
    (distance_correct s) (destroy_node_calls s).

Definition main (ds : list Delivery) (interrupt : bool)
  : Self * list Printed * option ((list Z * list Q) * (list Z * list Q)) :=
  let controller := init in
  let controller := final (spin ds) controller in
  let controller :=
    if interrupt then set_keyboard_interrupt_occurred true controller
    else controller in
  let '(printed, plotted) :=
    if keyboard_interrupt_occurred controller then
      ([Total_Right_Turns (right_turns controller);
        Total_Left_Turns (left_turns controller)], None)
    else
      ([Total_Right_Turns (right_turns controller);
        Total_Left_Turns (left_turns controller)],
       Some (plot_data controller)) in
  let controller := destroyed controller in
  (controller, printed, plotted).

End Model.

(** Angular velocity of a command and its sign. *)
Definition angular_z (t : Msg.Twist) : Q := Msg.z (Msg.angular t).

Definition linear_x (t : Msg.Twist) : Q := Msg.x (Msg.linear t).

Definition turns_left (t : Msg.Twist) : bool := Py.lt (angular_z t) 0.0.

Definition turns_right (t : Msg.Twist) : bool := Py.gt (angular_z t) 0.0.

Definition turns (t : Msg.Twist) : bool := negb (Qeq_bool (angular_z t) 0).

Definition count {A : Type} (f : A -> bool) (l : list A) : Z :=
  Z.of_nat (length (filter f l)).

(** ** A PID object on which the model can be run

    A discrete-time PID with unit sample period: the error is
    [setpoint - input], the integral term accumulates [Ki * error] and the
    derivative term acts on the change of the input. *)

Module SimplePid.

Record pid : Type := mk {
  Kp : Q; Ki : Q; Kd : Q; setpoint : Q;
  integral : Q;
  last_input : option Q
}.

Definition new (kp ki kd sp : Q) : pid := mk kp ki kd sp 0 None.

Definition call (p : pid) (input : Q) : Q * pid :=
  let error := setpoint p - input in
  let d_input :=
    input - match last_input p with Some v => v | None => input end in
  let proportional := Kp p * error in
  let integral := Qred (integral p + Ki p * error) in
  let derivative := - (Kd p * d_input) in
  let output := Qred (proportional + integral + derivative) in
  (output, mk (Kp p) (Ki p) (Kd p) (setpoint p) integral (Some input)).

#[global] Instance controller : PidController pid :=
  {| PID_new := new; PID_call := call |}.

End SimplePid.

(** ** Concrete runs *)

Definition sample (v : Q) : Msg.Vector3 := Msg.mkVector3 v v 0.

(** One distance sample, 0.2 above the offset 13.0. *)
Definition run_near : list Delivery := [OnDistance (sample 13.2)].

(** The orientation settles in the dead band, a far distance sample winds
    the integral term down, then a distance sample falls in the band
    (0, 0.3). *)
Definition run_reach : list Delivery :=
  [OnAngle (sample 0.03); OnDistance (sample 63.0); OnDistance (sample 13.2)].

(** Two corrections of opposite sign, then the dead band. *)
Definition run_turns : list Delivery :=
  [OnAngle (sample 0.2); OnAngle (sample (- 0.15)); OnAngle (sample 0.03)].

Definition start : Controller SimplePid.pid := init.

(** * Properties *)

Section Properties.

Context {PID : Type} `{PidController PID}.

Abbreviation State := (Controller PID).

(** ** Lists of writes *)

Lemma last_cons {A : Type} (a d : A) (l : list A) :
  last (a :: l) d = last l a.
Proof.
  revert a d; induction l as [|b l IH]; intros a d; [reflexivity|].
  change (last (a :: b :: l) d) with (last (b :: l) d).
  rewrite (IH b d). symmetry. apply IH.
Qed.

Lemma steps_app (s : State) (l1 l2 : list State) :
  steps s (l1 ++ l2) = steps s l1 ++ steps (last l1 s) l2.
Proof.
  revert s; induction l1 as [|a l1 IH]; intros s; [reflexivity|].
  cbn [app steps]. rewrite IH, last_cons. reflexivity.
Qed.

Lemma count_steps_app (f : State * State -> bool) (s : State)
      (l1 l2 : list State) :
  count_steps f s (l1 ++ l2)
  = (count_steps f s l1 + count_steps f (last l1 s) l2)%nat.
Proof.
  unfold count_steps. rewrite steps_app, filter_app, length_app. reflexivity.
Qed.

(** ** Sequencing *)

Lemma final_bind {A B : Type} (m : M A) (k : A -> M B) (s : State) :
  final (bind m k) s = final (k (fst (fst (m s)))) (final m s).
Proof.
  unfold final, bind. destruct (m s) as [[a s1] l1]. cbn.
  destruct (k a s1) as [[b s2] l2]. reflexivity.
Qed.

Lemma path_bind {A B : Type} (m : M A) (k : A -> M B) (s : State) :
  path (bind m k) s = path m s ++ path (k (fst (fst (m s)))) (final m s).
Proof.
  unfold path, final, bind. destruct (m s) as [[a s1] l1]. cbn.
  destruct (k a s1) as [[b s2] l2]. reflexivity.
Qed.

(** Symbolic execution of a callback: unfold the statements, then split on
    the result of the PID call and on every branch condition. *)
Ltac unfold_callbacks :=
  unfold dispatch, distance_callback, angles_callback, check_target_reached,
    publish, destroy_node, call_pid_distance, call_pid_orientation,
    bind, get, assign, ret.

Ltac split_branch :=
  match goal with
  | |- context [let (_, _) := PID_call ?p ?e in _] =>
      let u := fresh "u" in
      let p' := fresh "p" in
      let E := fresh "Epid" in
      destruct (PID_call p e) as [u p'] eqn:E
  | |- context [if ?c then _ else _] =>
      let E := fresh "Ec" in destruct c eqn:E
  end.

Ltac exec := unfold final, path; unfold_callbacks; cbn; repeat (split_branch; cbn).

(** ** Deliveries *)

Lemma dispatch_reached (d : Delivery) (s : State) :
  target_reached s = true -> dispatch d s = (tt, s, []).
Proof.
  intros Hr. destruct d; unfold_callbacks; rewrite Hr; reflexivity.
Qed.

Lemma dispatch_last (d : Delivery) (s : State) :
  last (path (dispatch d) s) s = final (dispatch d) s.
Proof.
  destruct d; exec; reflexivity.
Qed.

Lemma last_app_from {A : Type} (l1 l2 : list A) (d : A) :
  last (l1 ++ l2) d = last l2 (last l1 d).
Proof.
  revert d; induction l1 as [|a l1 IH]; intros d; [reflexivity|].
  change ((a :: l1) ++ l2) with (a :: (l1 ++ l2)).
  rewrite !last_cons. apply IH.
Qed.

(** ** Runs *)

Lemma spin_cons_final (d : Delivery) (ds : list Delivery) (s : State) :
  final (spin (d :: ds)) s = final (spin ds) (final (dispatch d) s).
Proof. cbn [spin]. apply final_bind. Qed.

Lemma spin_cons_path (d : Delivery) (ds : list Delivery) (s : State) :
  path (spin (d :: ds)) s
  = path (dispatch d) s ++ path (spin ds) (final (dispatch d) s).
Proof. cbn [spin]. apply path_bind. Qed.

Lemma spin_last (ds : list Delivery) (s : State) :
  last (path (spin ds) s) s = final (spin ds) s.
Proof.
  revert s; induction ds as [|d ds IH]; intros s; [reflexivity|].
  rewrite spin_cons_path, spin_cons_final, last_app_from, dispatch_last.
  apply IH.
Qed.

Lemma spin_reached (ds : list Delivery) (s : State) :
  target_reached s = true -> spin ds s = (tt, s, []).
Proof.
  intros Hr; induction ds as [|d ds IH]; [reflexivity|].
  cbn [spin]. unfold bind. rewrite (dispatch_reached d s Hr), IH. reflexivity.
Qed.

Lemma spin_app_final (ds1 ds2 : list Delivery) (s : State) :
  final (spin (ds1 ++ ds2)) s = final (spin ds2) (final (spin ds1) s).
Proof.
  revert s; induction ds1 as [|d ds1 IH]; intros s; [reflexivity|].
  change ((d :: ds1) ++ ds2) with (d :: (ds1 ++ ds2)).
  rewrite !spin_cons_final. apply IH.
Qed.

Lemma spin_app_path (ds1 ds2 : list Delivery) (s : State) :
  path (spin (ds1 ++ ds2)) s
  = path (spin ds1) s ++ path (spin ds2) (final (spin ds1) s).
Proof.
  revert s; induction ds1 as [|d ds1 IH]; intros s; [reflexivity|].
  change ((d :: ds1) ++ ds2) with (d :: (ds1 ++ ds2)).
  rewrite !spin_cons_path, spin_cons_final, IH, app_assoc. reflexivity.
Qed.

(** A property of states kept by every delivery, and a property of writes
    satisfied by every write of a delivery, hold along every run. *)
Lemma spin_invariant (I : State -> Prop) (R : State * State -> Prop) :
  (forall d s, I s ->
               I (final (dispatch d) s)
               /\ Forall R (steps s (path (dispatch d) s))) ->
  forall ds s, I s ->
               I (final (spin ds) s)
               /\ Forall R (steps s (path (spin ds) s)).
Proof.
  intros Hd ds; induction ds as [|d ds IH]; intros s Hs.
  - split; [exact Hs | constructor].
  - destruct (Hd d s Hs) as [Hs1 Hr1].
    destruct (IH _ Hs1) as [Hs2 Hr2].
    rewrite spin_cons_final, spin_cons_path, steps_app, dispatch_last.
    split; [exact Hs2 | apply Forall_app; split; assumption].
Qed.

(** Once set, [target_reached] stays set: no write clears it. *)
Lemma dispatch_keeps_reached (d : Delivery) (s : State) :
  Forall (fun w => target_reached (fst w) = true ->
                   target_reached (snd w) = true)
         (steps s (path (dispatch d) s)).
Proof.
  destruct d; exec; repeat constructor; cbn; congruence.
Qed.

(** ** The termination check on the orientation side *)

Lemma angles_callback_never_rises (msg : Msg.Vector3) (s : State) :
  Forall (fun w => rising w = false) (steps s (path (angles_callback msg) s)).
Proof.
  unfold rising.
  destruct (target_reached s) eqn:Hr.
  - unfold path.
    rewrite (dispatch_reached (OnAngle msg) s Hr : angles_callback msg s = _).
    constructor.
  - exec; repeat constructor; cbn; rewrite ?Hr; try reflexivity.
    all: rewrite andb_false_r in *; discriminate.
Qed.

Lemma angles_callback_target (msg : Msg.Vector3) (s : State) :
  target_reached (final (angles_callback msg) s) = target_reached s.
Proof.
  exec; try reflexivity.
  all: rewrite andb_false_r in *; discriminate.
Qed.

(** C3: a call of [check_target_reached] made by the angle callback never
    sets [target_reached], because [angle_correct] has just been assigned
    [False]: from every state, the check run after that assignment writes
    nothing; no write of the angle callback raises [target_reached]; the flag
    is the same after the angle callback as before; so a run that ends with
    [target_reached] set either started that way or delivered a distance
    sample, and a run of angle samples alone never terminates. *)
Theorem angle_callback_cannot_reach_target :
  (forall s : State,
     check_target_reached (set_angle_correct false s)
     = (tt, set_angle_correct false s, []))
  /\ (forall (msg : Msg.Vector3) (s : State),
        Forall (fun w => rising w = false)
               (steps s (path (angles_callback msg) s))
        /\ target_reached (final (angles_callback msg) s) = target_reached s)
  /\ (forall (ds : list Delivery) (s : State),
        target_reached (final (spin ds) s) = true ->
        target_reached s = true \/ exists msg, In (OnDistance msg) ds)
  /\ (forall msgs : list Msg.Vector3,
        target_reached (final (spin (map OnAngle msgs)) init) = false).
Proof.
  split; [|split; [|split]].
  - intros s. unfold check_target_reached, bind, get. cbn.
    rewrite andb_false_r. reflexivity.
  - intros msg s. split.
    + apply angles_callback_never_rises.
    + apply angles_callback_target.
  - intros ds; induction ds as [|d ds IH]; intros s Hf.
    + left; exact Hf.
    + rewrite spin_cons_final in Hf. destruct (IH _ Hf) as [Hd | [m Hm]].
      * destruct d as [m | m].
        -- right; exists m; left; reflexivity.
        -- left. cbn [dispatch] in Hd.
           rewrite angles_callback_target in Hd. exact Hd.
      * right; exists m; right; exact Hm.
  - intros msgs. generalize (@init PID _) (eq_refl : target_reached (@init PID _) = false).
    induction msgs as [|m msgs IH]; intros s Hs; [exact Hs|].
    cbn [map]. rewrite spin_cons_final. apply IH.
    cbn [dispatch]. rewrite angles_callback_target. exact Hs.
Qed.

(** ** The rendezvous of the two flags *)

Definition flags_at_rise (w : State * State) : Prop :=
  rising w = true ->
  distance_correct (snd w) = true /\ angle_correct (snd w) = true.

Ltac each_step := repeat first [apply Forall_nil | apply Forall_cons].

Lemma dispatch_flags_at_rise (d : Delivery) (s : State) :
  Forall flags_at_rise (steps s (path (dispatch d) s)).
Proof.
  destruct d; exec; each_step; unfold flags_at_rise, rising; cbn;
    intros Hrise;
    try (destruct (target_reached s); cbn in *; discriminate).
  all: repeat match goal with
       | E : (_ && _)%bool = true |- _ => apply andb_prop in E; destruct E
       end; split; try assumption.
  apply andb_true_intro; split; assumption.
Qed.

(** C2: whenever a write sets [target_reached] from [False] to [True], the
    state produced by that very write has [distance_correct] and
    [angle_correct] both [True]. This holds for every write of either
    callback from any state, for [check_target_reached] from any state, and
    so for every write of every run from the initial state. *)
Theorem target_reached_only_with_both_flags :
  (forall (d : Delivery) (s : State),
     Forall flags_at_rise (steps s (path (dispatch d) s)))
  /\ (forall s : State,
        Forall flags_at_rise (steps s (path check_target_reached s)))
  /\ (forall ds : list Delivery,
        Forall flags_at_rise (steps init (path (spin ds) init))).
Proof.
  split; [|split].
  - apply dispatch_flags_at_rise.
  - intros s. exec; each_step; unfold flags_at_rise, rising; cbn;
      intros Hrise.
    + apply andb_prop in Ec. exact Ec.
    + destruct (target_reached s); discriminate.
  - intros ds.
    apply (spin_invariant (fun _ => True) flags_at_rise); [|exact I].
    intros d s _. split; [exact I | apply dispatch_flags_at_rise].
Qed.

(** ** Callbacks after termination *)

(** C7: a callback invoked when [target_reached] is already [True] returns
    with [self] unchanged, field for field, and performs no write at all: in
    particular it publishes nothing. Invoking it again changes nothing
    either. *)
Theorem callback_after_target_is_noop (msg : Msg.Vector3) (s : State) :
  target_reached s = true ->
  distance_callback msg s = (tt, s, [])
  /\ angles_callback msg s = (tt, s, [])
  /\ issued (OnDistance msg) s = []
  /\ issued (OnAngle msg) s = []
  /\ final (distance_callback msg) (final (distance_callback msg) s) = s
  /\ final (angles_callback msg) (final (angles_callback msg) s) = s.
Proof.
  intros Hr.
  pose proof (dispatch_reached (OnDistance msg) s Hr) as Hd.
  pose proof (dispatch_reached (OnAngle msg) s Hr) as Ha.
  cbn [dispatch] in Hd, Ha.
  unfold issued, final. cbn [dispatch].
  rewrite !Hd, !Ha. cbn [fst snd]. rewrite ?Hd, ?Ha. cbn [fst snd].
  rewrite skipn_all. repeat split; reflexivity.
Qed.

(** ** Comparisons and clamping *)

Lemma lt_true_iff (a b : Q) : Py.lt a b = true <-> a < b.
Proof.
  unfold Py.lt. rewrite negb_true_iff. split.
  - intros Hf. apply Qnot_le_lt. intros Hle.
    apply Qle_bool_iff in Hle. congruence.
  - intros Hlt. destruct (Qle_bool b a) eqn:E; [|reflexivity].
    apply Qle_bool_iff in E. exfalso. exact (Qlt_not_le _ _ Hlt E).
Qed.

Lemma lt_false_iff (a b : Q) : Py.lt a b = false <-> b <= a.
Proof.
  unfold Py.lt. rewrite negb_false_iff. apply Qle_bool_iff.
Qed.

Lemma le_true_iff (a b : Q) : Py.le a b = true <-> a <= b.
Proof. apply Qle_bool_iff. Qed.

Lemma clamp_bounds (u limit : Q) :
  0 <= limit ->
  - limit <= Py.max (Py.min u limit) (- limit)
  /\ Py.max (Py.min u limit) (- limit) <= limit.
Proof.
  intros Hl. unfold Py.max, Py.min, Py.gt.
  destruct (Py.lt limit u) eqn:E1;
    [apply lt_true_iff in E1 | apply lt_false_iff in E1].
  - destruct (Py.lt limit (- limit)) eqn:E2;
      [apply lt_true_iff in E2 | apply lt_false_iff in E2]; lra.
  - destruct (Py.lt u (- limit)) eqn:E2;
      [apply lt_true_iff in E2 | apply lt_false_iff in E2]; lra.
Qed.

Lemma clamp_abs (u limit : Q) :
  0 <= limit -> Qabs (Py.max (Py.min u limit) (- limit)) <= limit.
Proof.
  intros Hl. apply Qabs_Qle_condition. apply clamp_bounds. exact Hl.
Qed.

Lemma abs_opp_le (v limit : Q) : Qabs v <= limit -> Qabs (- v) <= limit.
Proof. rewrite Qabs_opp. trivial. Qed.

(** ** What a delivery publishes *)

Lemma skipn_length_app {A : Type} (l r : list A) :
  skipn (length l) (l ++ r) = r.
Proof. induction l as [|a l IH]; [reflexivity | exact IH]. Qed.

Ltac issued_value :=
  rewrite ?skipn_length_app, ?skipn_all.

Lemma dispatch_publisher (d : Delivery) (s : State) :
  publisher_velocity (final (dispatch d) s)
  = publisher_velocity s ++ issued d s.
Proof.
  unfold issued. destruct d; exec; issued_value;
    rewrite ?app_nil_r; reflexivity.
Qed.

(** The speed limits of the two loops. *)
Definition within_limits (t : Msg.Twist) : Prop :=
  Qabs (linear_x t) <= 0.2 /\ Qabs (angular_z t) <= 0.1.

Lemma dispatch_within_limits (d : Delivery) (s : State) :
  Forall within_limits (issued d s).
Proof.
  assert (Hz : Qabs 0.0 <= 0.1) by (cbv; discriminate).
  assert (Hz' : Qabs 0.0 <= 0.2) by (cbv; discriminate).
  assert (Hl : 0 <= 0.2) by (cbv; discriminate).
  assert (Ha : 0 <= 0.1) by (cbv; discriminate).
  unfold issued. destruct d; exec; issued_value; each_step;
    unfold within_limits, linear_x, angular_z; cbn; split;
    try assumption;
    try (apply clamp_abs; assumption);
    try (apply abs_opp_le, clamp_abs; assumption).
Qed.

(** C8: whatever the PID returns, the clamped distance signal has magnitude
    at most 0.2 and the clamped orientation signal magnitude at most 0.1; so
    every command a callback publishes, from any state and for any sample,
    has linear velocity of magnitude at most 0.2 and angular velocity of
    magnitude at most 0.1, and so has every command of every run. *)
Theorem control_signals_are_clamped :
  (forall u : Q, Qabs (Py.max (Py.min u 0.2) (- 0.2)) <= 0.2)
  /\ (forall u : Q, Qabs (Py.max (Py.min u 0.1) (- 0.1)) <= 0.1)
  /\ (forall u : Q, Qabs (- Py.max (Py.min u 0.1) (- 0.1)) <= 0.1)
  /\ (forall (d : Delivery) (s : State), Forall within_limits (issued d s))
  /\ (forall ds : list Delivery,
        Forall within_limits (publisher_velocity (final (spin ds) init))).
Proof.
  assert (Hl : 0 <= 0.2) by (cbv; discriminate).
  assert (Ha : 0 <= 0.1) by (cbv; discriminate).
  split; [|split; [|split; [|split]]].
  - intros u. apply (clamp_abs u 0.2 Hl).
  - intros u. apply (clamp_abs u 0.1 Ha).
  - intros u. apply abs_opp_le, (clamp_abs u 0.1 Ha).
  - apply dispatch_within_limits.
  - intros ds.
    apply (spin_invariant
             (fun s => Forall within_limits (publisher_velocity s))
             (fun _ => True)).
    + intros d s Hs. split.
      * rewrite dispatch_publisher. apply Forall_app. split;
          [exact Hs | apply dispatch_within_limits].
      * apply Forall_forall. intros; exact I.
    + constructor.
Qed.

(** ** The orientation dead band *)

(** C6: an angle sample with [0 < |angle_variation| <= 0.055], processed
    while [target_reached] is [False], performs exactly three writes: the
    sample is logged, [angle_correct] becomes [True], and one command with
    angular velocity [0.0] is published. The orientation PID object is left
    untouched (it is not called), neither turn counter changes, and
    [target_reached] stays [False] with no [destroy_node]: no termination
    check runs, even though one run at that point with [distance_correct]
    set would have fired. *)
Theorem dead_band_sample (msg : Msg.Vector3) (s : State) :
  target_reached s = false ->
  0 < Qabs (Msg.y msg) ->
  Qabs (Msg.y msg) <= 0.055 ->
  let s1 := append_orientation_error (Msg.y msg) s in
  let s2 := set_angle_correct true s1 in
  let twist := Msg.set_angular_z 0.0 Msg.Twist_new in
  let s3 := send twist s2 in
  angles_callback msg s = (tt, s3, [s1; s2; s3])
  /\ issued (OnAngle msg) s = [twist]
  /\ angular_z twist = 0.0
  /\ angle_correct s3 = true
  /\ pid_orientation s3 = pid_orientation s
  /\ pid_distance s3 = pid_distance s
  /\ left_turns s3 = left_turns s
  /\ right_turns s3 = right_turns s
  /\ target_reached s3 = false
  /\ destroy_node_calls s3 = destroy_node_calls s
  /\ (distance_correct s = true ->
      target_reached (final check_target_reached s3) = true).
Proof.
  intros Hr Hpos Hle s1 s2 twist s3.
  assert (Hband : Py.lt 0 (Qabs (Msg.y msg))
                  && Py.le (Qabs (Msg.y msg)) 0.055 = true).
  { apply andb_true_intro. split;
      [apply lt_true_iff | apply le_true_iff]; assumption. }
  assert (Hcall : angles_callback msg s = (tt, s3, [s1; s2; s3])).
  { unfold angles_callback, bind, get. cbn. rewrite Hr. cbn.
    rewrite Hband. reflexivity. }
  split; [exact Hcall|].
  split.
  { unfold issued, final. cbn [dispatch]. rewrite Hcall. cbn.
    apply skipn_length_app. }
  repeat split; try reflexivity; try exact Hr.
  intros Hd. unfold final, check_target_reached, bind, get. cbn.
  rewrite Hd. reflexivity.
Qed.

(** ** The branches of the distance loop *)

(** C5: when the first branch is not taken, the condition of the second,
    [abs(distance_error < 0)], is the absolute value of the comparison read
    as 0 or 1, and is true exactly when [distance_error < 0]. When it is
    true, [distance_correct] is set to [False] and the command published has
    linear velocity equal to the negated clamped control signal; when it is
    false, that write does not happen. *)
Theorem distance_second_branch (msg : Msg.Vector3) (s : State) (u : Q)
        (p : PID) :
  target_reached s = false ->
  PID_call (pid_distance s) (Msg.x msg - 13.0) = (u, p) ->
  let distance_error := Msg.x msg - 13.0 in
  let control_signal := Py.max (Py.min u 0.2) (- 0.2) in
  let s1 := set_pid_distance p s in
  let s2 := append_time s1 in
  let s3 := append_distance_error distance_error s2 in
  0 <= control_signal ->
  distance_error <= 0.3 ->
  Py.abs_bool (Py.lt distance_error 0)
  = (if Py.lt distance_error 0 then 1 else 0)%Z
  /\ (Py.truthy (Py.abs_bool (Py.lt distance_error 0)) = true
      <-> distance_error < 0)
  /\ (distance_error < 0 ->
      let s4 := set_distance_correct false s3 in
      let twist := Msg.set_linear_x (- control_signal) Msg.Twist_new in
      distance_callback msg s = (tt, send twist s4,
                                 [s1; s2; s3; s4; send twist s4])
      /\ distance_correct (final (distance_callback msg) s) = false
      /\ issued (OnDistance msg) s = [twist]
      /\ linear_x twist = - control_signal)
  /\ (0 <= distance_error ->
      distance_callback msg s = (tt, send Msg.Twist_new s3,
                                 [s1; s2; s3; send Msg.Twist_new s3])).
Proof.
  intros Hr Hpid e c s1 s2 s3 Hc He.
  assert (Hfirst : Py.lt c 0 || Py.gt e 0.3 = false).
  { apply orb_false_intro; [|unfold Py.gt]; apply lt_false_iff; assumption. }
  assert (Hbool : Py.truthy (Py.abs_bool (Py.lt e 0)) = Py.lt e 0).
  { destruct (Py.lt e 0); reflexivity. }
  split; [destruct (Py.lt e 0); reflexivity|].
  split; [rewrite Hbool; apply lt_true_iff|].
  split.
  - intros Hneg s4 twist.
    assert (Hcall : distance_callback msg s
                    = (tt, send twist s4, [s1; s2; s3; s4; send twist s4])).
    { unfold distance_callback, call_pid_distance, bind, get. cbn.
      rewrite Hr. cbn. rewrite Hpid. cbn.
      fold e. fold c. rewrite Hfirst, Hbool.
      rewrite (proj2 (lt_true_iff e 0) Hneg). reflexivity. }
    split; [exact Hcall|].
    unfold issued, final. cbn [dispatch]. rewrite Hcall. cbn.
    split; [reflexivity|]. split; [apply skipn_length_app | reflexivity].
  - intros Hpos.
    unfold distance_callback, call_pid_distance, bind, get. cbn.
    rewrite Hr. cbn. rewrite Hpid. cbn.
    fold e. fold c. rewrite Hfirst, Hbool.
    rewrite (proj2 (lt_false_iff e 0) Hpos). reflexivity.
Qed.

(** C4, as the code has it: a distance sample processed while
    [target_reached] is [False] for which neither branch condition holds is
    still followed by the [publish] at the end of the callback: exactly one
    command is published, the untouched [Twist()] with every velocity
    [0.0], and neither convergence flag nor [target_reached] changes. *)
Theorem distance_sample_outside_branches (msg : Msg.Vector3) (s : State)
        (u : Q) (p : PID) :
  target_reached s = false ->
  PID_call (pid_distance s) (Msg.x msg - 13.0) = (u, p) ->
  0 <= Py.max (Py.min u 0.2) (- 0.2) ->
  Msg.x msg - 13.0 <= 0.3 ->
  0 <= Msg.x msg - 13.0 ->
  issued (OnDistance msg) s = [Msg.Twist_new]
  /\ linear_x Msg.Twist_new = 0.0
  /\ angular_z Msg.Twist_new = 0.0
  /\ distance_correct (final (distance_callback msg) s) = distance_correct s
  /\ angle_correct (final (distance_callback msg) s) = angle_correct s
  /\ target_reached (final (distance_callback msg) s) = false.
Proof.
  intros Hr Hpid Hc He Hpos.
  assert (Hfirst : Py.lt (Py.max (Py.min u 0.2) (- 0.2)) 0
                   || Py.gt (Msg.x msg - 13.0) 0.3 = false).
  { apply orb_false_intro; [|unfold Py.gt]; apply lt_false_iff; assumption. }
  assert (Hsecond : Py.truthy (Py.abs_bool (Py.lt (Msg.x msg - 13.0) 0))
                    = false).
  { rewrite (proj2 (lt_false_iff _ 0) Hpos). reflexivity. }
  unfold issued, final. cbn [dispatch].
  unfold distance_callback, call_pid_distance, bind, get. cbn.
  rewrite Hr. cbn. rewrite Hpid. cbn. rewrite Hfirst, Hsecond. cbn.
  rewrite skipn_length_app. repeat split; try reflexivity. exact Hr.
Qed.

(** ** Turn accounting *)

Lemma count_app {A : Type} (f : A -> bool) (l1 l2 : list A) :
  count f (l1 ++ l2) = (count f l1 + count f l2)%Z.
Proof.
  unfold count. rewrite filter_app, length_app. lia.
Qed.

Lemma count_nonneg {A : Type} (f : A -> bool) (l : list A) :
  (0 <= count f l)%Z.
Proof. unfold count. lia. Qed.

Lemma turns_split (t : Msg.Twist) :
  turns t = turns_left t || turns_right t
  /\ turns_left t && turns_right t = false.
Proof.
  unfold turns, turns_left, turns_right, Py.gt.
  destruct (Py.lt (angular_z t) 0.0) eqn:E1;
    [apply lt_true_iff in E1 | apply lt_false_iff in E1];
    (destruct (Py.lt 0.0 (angular_z t)) eqn:E2;
     [apply lt_true_iff in E2 | apply lt_false_iff in E2]);
    (destruct (Qeq_bool (angular_z t) 0) eqn:E3;
     [apply Qeq_bool_iff in E3 | apply Qeq_bool_neq in E3]);
    cbn; split; try reflexivity; exfalso; lra.
Qed.

Lemma count_one {A : Type} (f : A -> bool) (a : A) :
  count f [a] = if f a then 1%Z else 0%Z.
Proof. unfold count. cbn. destruct (f a); reflexivity. Qed.

Lemma count_turns (l : list Msg.Twist) :
  count turns l = (count turns_left l + count turns_right l)%Z.
Proof.
  induction l as [|t l IH]; [reflexivity|].
  change (t :: l) with ([t] ++ l). rewrite !count_app, IH, !count_one.
  destruct (turns_split t) as [Hs Hx]. rewrite Hs.
  destruct (turns_left t), (turns_right t); cbn [orb andb] in *;
    try discriminate; lia.
Qed.

(** The effect of one delivery on the two counters. *)
Lemma dispatch_turns (d : Delivery) (s : State) :
  let cs := if is_correction d s then issued d s else [] in
  left_turns (final (dispatch d) s) = (left_turns s + count turns_left cs)%Z
  /\ right_turns (final (dispatch d) s)
     = (right_turns s + count turns_right cs)%Z.
Proof.
  unfold is_correction, in_dead_band, issued.
  destruct d as [msg | msg].
  - cbn zeta. exec; split; unfold count; cbn; lia.
  - cbn zeta. exec; issued_value;
      unfold count, turns_left, turns_right, angular_z, Py.gt in *; cbn;
      rewrite ?Ec1, ?Ec2; cbn; try (split; lia).
    all: apply lt_true_iff in Ec1.
    all: destruct (Py.lt 0.0 (- Py.max (Py.min u 0.1) (- 0.1))) eqn:E;
      [apply lt_true_iff in E; exfalso; lra | cbn; split; lia].
Qed.

Lemma spin_turns (ds : list Delivery) (s : State) :
  left_turns (final (spin ds) s)
  = (left_turns s + count turns_left (corrections ds s))%Z
  /\ right_turns (final (spin ds) s)
     = (right_turns s + count turns_right (corrections ds s))%Z.
Proof.
  revert s; induction ds as [|d ds IH]; intros s.
  - cbn. unfold count; cbn. split; lia.
  - rewrite spin_cons_final. cbn [corrections]. rewrite !count_app.
    destruct (IH (final (dispatch d) s)) as [Hl Hr].
    destruct (dispatch_turns d s) as [Hl1 Hr1]. cbn zeta in Hl1, Hr1.
    rewrite Hl, Hr, Hl1, Hr1. split; lia.
Qed.

Definition counters_grow (w : State * State) : Prop :=
  (left_turns (fst w) <= left_turns (snd w))%Z
  /\ (right_turns (fst w) <= right_turns (snd w))%Z.

Lemma dispatch_counters_grow (d : Delivery) (s : State) :
  Forall counters_grow (steps s (path (dispatch d) s)).
Proof.
  destruct d; exec; each_step; unfold counters_grow; cbn; lia.
Qed.

(** Every correction publishes exactly one command. *)
Lemma correction_issues_one (d : Delivery) (s : State) :
  is_correction d s = true -> length (issued d s) = 1%nat.
Proof.
  unfold is_correction, in_dead_band, issued.
  destruct d as [msg | msg]; [discriminate|].
  exec; issued_value; intros Hc; try reflexivity; discriminate.
Qed.

(** C9: along every run from the initial state, [left_turns] is the number
    of orientation corrections whose commanded angular velocity was negative
    and [right_turns] the number of those whose command was positive, so
    their sum is the number of corrections with a non-zero command and a
    zero command counts for neither; every correction issues exactly one
    command; both counters are non-negative and no write of the run ever
    decreases either. *)
Theorem turn_counters_account_for_corrections :
  (forall ds : list Delivery,
     left_turns (final (spin ds) init)
     = count turns_left (corrections ds init)
     /\ right_turns (final (spin ds) init)
        = count turns_right (corrections ds init)
     /\ (left_turns (final (spin ds) init)
         + right_turns (final (spin ds) init))%Z
        = count turns (corrections ds init)
     /\ (0 <= left_turns (final (spin ds) init))%Z
     /\ (0 <= right_turns (final (spin ds) init))%Z
     /\ Forall counters_grow (steps init (path (spin ds) init)))
  /\ (forall t : Msg.Twist,
        turns t = turns_left t || turns_right t
        /\ turns_left t && turns_right t = false)
  /\ (forall (d : Delivery) (s : State),
        is_correction d s = true -> length (issued d s) = 1%nat)
  /\ (forall (d : Delivery) (s : State),
        left_turns (final (dispatch d) s)
        = (left_turns s
           + count turns_left (if is_correction d s then issued d s else []))%Z
        /\ right_turns (final (dispatch d) s)
           = (right_turns s
              + count turns_right
                  (if is_correction d s then issued d s else []))%Z).
Proof.
  split; [|split; [|split]].
  - intros ds. destruct (spin_turns ds init) as [Hl Hr].
    change (left_turns init) with 0%Z in Hl.
    change (right_turns init) with 0%Z in Hr.
    rewrite Z.add_0_l in Hl, Hr.
    split; [exact Hl|]. split; [exact Hr|].
    split; [rewrite Hl, Hr; symmetry; apply count_turns|].
    split; [rewrite Hl; apply count_nonneg|].
    split; [rewrite Hr; apply count_nonneg|].
    apply (spin_invariant (fun _ => True) counters_grow); [|exact I].
    intros d s _. split; [exact I | apply dispatch_counters_grow].
  - apply turns_split.
  - apply correction_issues_one.
  - intros d s. apply (dispatch_turns d s).
Qed.

(** ** The error fed to the distance PID *)

Lemma feed_app (p : PID) (l1 l2 : list Q) :
  feed p (l1 ++ l2) = feed (feed p l1) l2.
Proof. unfold feed. apply fold_left_app. Qed.

Lemma dispatch_distance_error (d : Delivery) (s : State) :
  let es := map (fun v => v - 13.0) (processed_distance d s) in
  distance_errors (final (dispatch d) s) = distance_errors s ++ es
  /\ pid_distance (final (dispatch d) s) = feed (pid_distance s) es.
Proof.
  unfold processed_distance, feed.
  destruct d as [msg | msg]; cbn zeta; exec;
    rewrite ?app_nil_r, ?Epid; split; reflexivity.
Qed.

Lemma spin_distance_errors (ds : list Delivery) (s : State) :
  let es := map (fun v => v - 13.0) (processed_distances ds s) in
  distance_errors (final (spin ds) s) = distance_errors s ++ es
  /\ pid_distance (final (spin ds) s) = feed (pid_distance s) es.
Proof.
  revert s; induction ds as [|d ds IH]; intros s; cbn zeta.
  - cbn. rewrite app_nil_r. split; reflexivity.
  - rewrite spin_cons_final. cbn [processed_distances].
    rewrite map_app, feed_app, app_assoc.
    destruct (IH (final (dispatch d) s)) as [He Hp].
    destruct (dispatch_distance_error d s) as [He1 Hp1].
    cbn zeta in He, Hp, He1, Hp1.
    rewrite He, Hp, He1, Hp1. split; reflexivity.
Qed.

(** C10: the distance PID object is created as [PID(1.0, 0.2, 0.0,
    setpoint=6.0)]; for a distance sample processed before termination, the
    value passed to that object, and logged as the distance error, is the
    measured variation minus the offset 13.0; so at the end of every run the
    log holds these differences for the samples processed, in order, and the
    PID object is the initial one after being called on each of them. *)
Theorem distance_error_is_offset_by_thirteen :
  pid_distance init = PID_new 1.0 0.2 0.0 6.0
  /\ (forall (msg : Msg.Vector3) (s : State),
        target_reached s = false ->
        pid_distance (final (distance_callback msg) s)
        = snd (PID_call (pid_distance s) (Msg.x msg - 13.0))
        /\ distance_errors (final (distance_callback msg) s)
           = distance_errors s ++ [Msg.x msg - 13.0])
  /\ (forall ds : list Delivery,
        distance_errors (final (spin ds) init)
        = map (fun v => v - 13.0) (processed_distances ds init)
        /\ pid_distance (final (spin ds) init)
           = feed (PID_new 1.0 0.2 0.0 6.0)
                  (map (fun v => v - 13.0) (processed_distances ds init))).
Proof.
  split; [reflexivity|]. split.
  - intros msg s Hr.
    destruct (dispatch_distance_error (OnDistance msg) s) as [He Hp].
    cbn [dispatch processed_distance] in He, Hp.
    rewrite Hr in He, Hp. cbn in He, Hp. split; [exact Hp | exact He].
  - intros ds. apply (spin_distance_errors ds init).
Qed.

(** ** Termination and the commands that follow it *)

Lemma ltb_succ_app {A : Type} (l : list A) (a : A) :
  (length l <? length (l ++ [a]))%nat = true.
Proof. rewrite length_app. cbn. apply Nat.ltb_lt. lia. Qed.

(** A delivery started before termination raises [target_reached] at most
    once; when it does, exactly one of its writes is a [publish] executed
    after the flag is set. *)
Lemma count_steps_cons (f : State * State -> bool) (s a : State)
      (l : list State) :
  count_steps f s (a :: l)
  = ((if f (s, a) then 1 else 0) + count_steps f a l)%nat.
Proof.
  unfold count_steps. cbn [steps filter]. destruct (f (s, a)); reflexivity.
Qed.

Lemma dispatch_rise_count (d : Delivery) (s : State) :
  target_reached s = false ->
  count_steps rising s (path (dispatch d) s)
  = (if target_reached (final (dispatch d) s) then 1 else 0)%nat
  /\ count_steps late_publishing s (path (dispatch d) s)
     = (if target_reached (final (dispatch d) s) then 1 else 0)%nat.
Proof.
  intros Hr.
  remember (count_steps rising) as cr eqn:Hcr.
  remember (count_steps late_publishing) as cl eqn:Hcl.
  destruct d; exec; try discriminate; subst cr cl;
    rewrite !count_steps_cons;
    unfold count_steps, rising, late_publishing, publishing;
    cbn -[Nat.ltb Nat.add];
    try match goal with
        | E : target_reached _ = false |- _ => rewrite ?E
        end;
    rewrite ?ltb_succ_app, ?Nat.ltb_irrefl; cbn;
    try (split; reflexivity).
  all: rewrite andb_false_r in *; discriminate.
Qed.

Lemma spin_rise_count (ds : list Delivery) (s : State) :
  target_reached s = false ->
  count_steps rising s (path (spin ds) s)
  = (if target_reached (final (spin ds) s) then 1 else 0)%nat
  /\ count_steps late_publishing s (path (spin ds) s)
     = (if target_reached (final (spin ds) s) then 1 else 0)%nat.
Proof.
  revert s; induction ds as [|d ds IH]; intros s Hr.
  - cbn. rewrite Hr. split; reflexivity.
  - rewrite spin_cons_final, spin_cons_path, !count_steps_app, dispatch_last.
    destruct (dispatch_rise_count d s Hr) as [H1 H2]. rewrite H1, H2.
    destruct (target_reached (final (dispatch d) s)) eqn:Hd.
    + pose proof (spin_reached ds _ Hd) as Hs.
      assert (Hf : final (spin ds) (final (dispatch d) s)
                   = final (dispatch d) s)
        by (unfold final at 1; rewrite Hs; reflexivity).
      assert (Hp : path (spin ds) (final (dispatch d) s) = [])
        by (unfold path; rewrite Hs; reflexivity).
      rewrite Hf, Hp, Hd. split; reflexivity.
    + apply (IH _ Hd).
Qed.

(** In every run from the initial state [target_reached] is raised at most
    once, and each time it is raised exactly one [publish] follows. *)
Lemma target_reached_rises_once (ds : list Delivery) :
  (count_steps rising init (path (spin ds) init) <= 1)%nat
  /\ count_steps late_publishing init (path (spin ds) init)
     = count_steps rising init (path (spin ds) init).
Proof.
  destruct (spin_rise_count ds init eq_refl) as [H1 H2].
  rewrite H1, H2. destruct (target_reached (final (spin ds) init)).
  - split; [apply le_n | reflexivity].
  - split; [apply Nat.le_0_l | reflexivity].
Qed.

(** * Further properties of the callbacks *)

(** Turns boolean comparisons in the context into facts on the rationals. *)
Ltac order_facts :=
  repeat match goal with
         | E : Py.lt _ _ = true |- _ => apply lt_true_iff in E
         | E : Py.lt _ _ = false |- _ => apply lt_false_iff in E
         | E : Py.le _ _ = true |- _ => apply le_true_iff in E
         | E : (_ || _)%bool = false |- _ =>
             apply orb_false_elim in E; destruct E
         | E : (_ && _)%bool = true |- _ =>
             apply andb_prop in E; destruct E
         end.

Lemma clamp_cases (u limit : Q) :
  0 <= limit ->
  (- limit <= u -> u <= limit -> Py.max (Py.min u limit) (- limit) = u)
  /\ (limit < u -> Py.max (Py.min u limit) (- limit) = limit)
  /\ (u < - limit -> Py.max (Py.min u limit) (- limit) = - limit).
Proof.
  intros Hl. unfold Py.max, Py.min, Py.gt.
  destruct (Py.lt limit u) eqn:E1;
    [destruct (Py.lt limit (- limit)) eqn:E2
    | destruct (Py.lt u (- limit)) eqn:E2];
    order_facts; repeat split; intros; try reflexivity; exfalso; lra.
Qed.

(** X1: the clamp [max(min(u, L), -L)] of lines 60 and 129 is a saturation:
    a signal already within the limits goes through unchanged, a signal
    above the limit becomes the limit and one below the negated limit
    becomes the negated limit, for the speed limit 0.2 and for the turn-rate
    limit 0.1. *)
Theorem clamp_is_saturation (u : Q) :
  (- 0.2 <= u -> u <= 0.2 -> Py.max (Py.min u 0.2) (- 0.2) = u)
  /\ (0.2 < u -> Py.max (Py.min u 0.2) (- 0.2) = 0.2)
  /\ (u < - 0.2 -> Py.max (Py.min u 0.2) (- 0.2) = - 0.2)
  /\ (- 0.1 <= u -> u <= 0.1 -> Py.max (Py.min u 0.1) (- 0.1) = u)
  /\ (0.1 < u -> Py.max (Py.min u 0.1) (- 0.1) = 0.1)
  /\ (u < - 0.1 -> Py.max (Py.min u 0.1) (- 0.1) = - 0.1).
Proof.
  assert (Hl : 0 <= 0.2) by (cbv; discriminate).
  assert (Ha : 0 <= 0.1) by (cbv; discriminate).
  destruct (clamp_cases u 0.2 Hl) as (H1 & H2 & H3).
  destruct (clamp_cases u 0.1 Ha) as (H4 & H5 & H6).
  repeat split; assumption.
Qed.

(** ** One command per processed sample *)

Lemma dispatch_issues (d : Delivery) (s : State) :
  length (issued d s) = if target_reached s then 0%nat else 1%nat.
Proof.
  unfold issued. destruct d; exec; issued_value; try reflexivity;
    cbn in *; discriminate.
Qed.

Definition one_command_per_sample (s : State) : Prop :=
  length (publisher_velocity s)
  = (length (time s) + length (orientation_errors s))%nat.

Lemma dispatch_one_command (d : Delivery) (s : State) :
  one_command_per_sample s -> one_command_per_sample (final (dispatch d) s).
Proof.
  unfold one_command_per_sample. intros Hs.
  destruct d; exec; rewrite ?length_app; cbn [length]; lia.
Qed.

(** X2: every sample processed before termination, whatever branch it
    takes, hands exactly one command to the publisher, and a sample received
    after termination none; so in every run the number of commands published
    is the number of distance samples logged plus the number of angle
    samples logged. *)
Theorem one_command_for_each_processed_sample :
  (forall (d : Delivery) (s : State),
     length (issued d s) = if target_reached s then 0%nat else 1%nat)
  /\ (forall ds : list Delivery,
        length (publisher_velocity (final (spin ds) init))
        = (length (time (final (spin ds) init))
           + length (orientation_errors (final (spin ds) init)))%nat).
Proof.
  split; [apply dispatch_issues|].
  intros ds.
  apply (spin_invariant one_command_per_sample (fun _ => True)).
  - intros d s Hs. split; [apply dispatch_one_command; exact Hs|].
    apply Forall_forall. intros; exact I.
  - reflexivity.
Qed.

(** ** The logs *)

Definition time_is_index (s : State) : Prop :=
  time s = map Z.of_nat (seq 0 (length (distance_errors s))).

Lemma dispatch_time_is_index (d : Delivery) (s : State) :
  time_is_index s -> time_is_index (final (dispatch d) s).
Proof.
  unfold time_is_index. intros Hs.
  destruct d; exec; try exact Hs.
  all: rewrite length_app, Nat.add_comm; cbn [length Nat.add];
    rewrite seq_S, map_app, <- Hs; cbn [map Nat.add]; rewrite Hs at 2;
    rewrite length_map, length_seq; reflexivity.
Qed.

Lemma dispatch_orientation_log (d : Delivery) (s : State) :
  orientation_errors (final (dispatch d) s)
  = orientation_errors s ++ processed_angle d s.
Proof.
  unfold processed_angle.
  destruct d; exec; rewrite ?app_nil_r; reflexivity.
Qed.

Lemma spin_orientation_log (ds : list Delivery) (s : State) :
  orientation_errors (final (spin ds) s)
  = orientation_errors s ++ processed_angles ds s.
Proof.
  revert s; induction ds as [|d ds IH]; intros s.
  - cbn. rewrite app_nil_r. reflexivity.
  - rewrite spin_cons_final, IH, dispatch_orientation_log, <- app_assoc.
    reflexivity.
Qed.

(** X3: in every run, [time] holds the indices [0, 1, ..., n-1] where [n] is
    the number of distance samples processed, so it always has the length of
    [distance_errors]; an angle sample never extends it.
    [orientation_errors] holds the raw angle samples processed before
    termination, in order, whether they fell in the dead band or not. *)
Theorem logs_record_processed_samples (ds : list Delivery) :
  time (final (spin ds) init)
  = map Z.of_nat (seq 0 (length (processed_distances ds init)))
  /\ length (time (final (spin ds) init))
     = length (distance_errors (final (spin ds) init))
  /\ orientation_errors (final (spin ds) init) = processed_angles ds init.
Proof.
  assert (Ht : time_is_index (final (spin ds) init)).
  { apply (spin_invariant time_is_index (fun _ => True)).
    - intros d s Hs. split; [apply dispatch_time_is_index; exact Hs|].
      apply Forall_forall. intros; exact I.
    - reflexivity. }
  destruct (spin_distance_errors ds init) as [He _]. cbn zeta in He.
  change (distance_errors init) with (@nil Q) in He. cbn [app] in He.
  unfold time_is_index in Ht.
  split; [|split].
  - rewrite Ht, He, length_map. reflexivity.
  - rewrite Ht, length_map, length_seq. reflexivity.
  - apply (spin_orientation_log ds init).
Qed.

(** X4: of the two series [plot_data] hands to [plt.plot], the first,
    [time] against [distance_errors], always has as many x values as y
    values; the second, [time] against [orientation_errors], has as many x
    values as y values exactly when as many distance samples as angle
    samples were processed. *)
Theorem plot_data_series_lengths (ds : list Delivery) :
  let series := plot_data (final (spin ds) init) in
  length (fst (fst series)) = length (snd (fst series))
  /\ (length (fst (snd series)) = length (snd (snd series))
      <-> length (processed_distances ds init)
          = length (processed_angles ds init)).
Proof.
  cbn zeta. unfold plot_data. cbn [fst snd].
  destruct (spin_distance_errors ds init) as [He _]. cbn zeta in He.
  change (distance_errors init) with (@nil Q) in He. cbn [app] in He.
  assert (Ht : time_is_index (final (spin ds) init)).
  { apply (spin_invariant time_is_index (fun _ => True)).
    - intros d s Hs. split; [apply dispatch_time_is_index; exact Hs|].
      apply Forall_forall. intros; exact I.
    - reflexivity. }
  unfold time_is_index in Ht.
  assert (Hl : length (time (final (spin ds) init))
               = length (processed_distances ds init)).
  { rewrite Ht, length_map, length_seq, He, length_map. reflexivity. }
  split.
  - rewrite Hl, He, length_map. reflexivity.
  - rewrite Hl, (spin_orientation_log ds init). cbn [app orientation_errors init].
    reflexivity.
Qed.

(** ** The orientation PID *)

Lemma dispatch_orientation_pid (d : Delivery) (s : State) :
  pid_orientation (final (dispatch d) s)
  = feed (pid_orientation s) (corrected_angle d s).
Proof.
  unfold corrected_angle, processed_angle, is_correction, in_dead_band, feed.
  destruct d; exec; rewrite ?Epid; reflexivity.
Qed.

Lemma spin_orientation_pid (ds : list Delivery) (s : State) :
  pid_orientation (final (spin ds) s)
  = feed (pid_orientation s) (corrected_angles ds s).
Proof.
  revert s; induction ds as [|d ds IH]; intros s; [reflexivity|].
  rewrite spin_cons_final, IH, dispatch_orientation_pid.
  cbn [corrected_angles]. rewrite feed_app. reflexivity.
Qed.

(** X5: the orientation PID object is created as [PID(0.5, 0.1, 0.5,
    setpoint=0.0)] and, in every run, has been called on exactly the angle
    samples processed before termination that lie outside the dead band, in
    order, with the raw sample as input; dead-band samples and distance
    samples never reach it. *)
Theorem orientation_pid_sees_only_corrections :
  (forall ds : list Delivery,
     pid_orientation (final (spin ds) init)
     = feed (PID_new 0.5 0.1 0.5 0.0) (corrected_angles ds init))
  /\ (forall (d : Delivery) (s : State),
        pid_orientation (final (dispatch d) s)
        = feed (pid_orientation s) (corrected_angle d s))
  /\ (forall (msg : Msg.Vector3) (s : State),
        corrected_angle (OnDistance msg) s = []
        /\ (in_dead_band (Msg.y msg) = true ->
            corrected_angle (OnAngle msg) s = [])
        /\ (target_reached s = true -> corrected_angle (OnAngle msg) s = [])
        /\ (target_reached s = false -> in_dead_band (Msg.y msg) = false ->
            corrected_angle (OnAngle msg) s = [Msg.y msg])).
Proof.
  split; [|split].
  - intros ds. apply (spin_orientation_pid ds init).
  - apply dispatch_orientation_pid.
  - intros msg s. unfold corrected_angle, processed_angle, is_correction.
    split; [reflexivity|]. split; [|split].
    + intros Hb. rewrite Hb, andb_false_r. reflexivity.
    + intros Hr. rewrite Hr. reflexivity.
    + intros Hr Hb. rewrite Hr, Hb. reflexivity.
Qed.

(** ** When a distance sample terminates the run *)

(** X6: a distance sample processed before termination sets
    [target_reached] exactly when [angle_correct] holds, the distance error
    lies strictly between 0 and 0.3, and the clamped control signal is
    negative: the alternative [distance_error > 0.3] of the first branch
    excludes the band, so a sample in the band with a control signal that is
    not negative does not terminate the run. On termination [angle_correct]
    is cleared, [distance_correct] is set, [destroy_node] is called once,
    and the command published is the negative control signal. *)
Theorem distance_termination_condition (msg : Msg.Vector3) (s : State)
        (u : Q) (p : PID) :
  target_reached s = false ->
  PID_call (pid_distance s) (Msg.x msg - 13.0) = (u, p) ->
  let distance_error := Msg.x msg - 13.0 in
  let control_signal := Py.max (Py.min u 0.2) (- 0.2) in
  let after := final (distance_callback msg) s in
  target_reached after
  = angle_correct s
    && (Py.lt 0 distance_error && Py.lt distance_error 0.3)
    && Py.lt control_signal 0
  /\ (target_reached after = true ->
      angle_correct after = false
      /\ distance_correct after = true
      /\ destroy_node_calls after = S (destroy_node_calls s)
      /\ issued (OnDistance msg) s
         = [Msg.set_linear_x control_signal Msg.Twist_new]
      /\ control_signal < 0).
Proof.
  intros Hr Hpid e c after. subst after.
  unfold issued, final. cbn [dispatch].
  unfold distance_callback, call_pid_distance, bind, get, assign, ret,
    publish, destroy_node.
  cbn. rewrite Hr. cbn. rewrite Hpid. cbn. fold e. fold c.
  destruct (Py.lt c 0) eqn:Ec; destruct (Py.gt e 0.3) eqn:Eg; cbn;
    destruct (angle_correct s) eqn:Ea; cbn;
    destruct (Py.lt 0 e) eqn:E0; cbn;
    destruct (Py.lt e 0.3) eqn:E3; cbn;
    try (destruct (Py.truthy (Py.abs_bool (Py.lt e 0))); cbn);
    rewrite ?Hr; unfold Py.gt in *; order_facts;
    try (exfalso; lra);
    (split; [reflexivity|]); intros Ht; try discriminate Ht.
  all: rewrite skipn_length_app; repeat split; try reflexivity; assumption.
Qed.

(** ** The state in which a run ends *)

Definition terminal_shape (s : State) : Prop :=
  destroy_node_calls s = (if target_reached s then 1 else 0)%nat
  /\ (target_reached s = true ->
      angle_correct s = false /\ distance_correct s = true).

Lemma dispatch_terminal_shape (d : Delivery) (s : State) :
  terminal_shape s -> terminal_shape (final (dispatch d) s).
Proof.
  intros Hs. destruct (target_reached s) eqn:Hr.
  - unfold final. rewrite (dispatch_reached d s Hr). exact Hs.
  - destruct Hs as [Hn _]. rewrite Hr in Hn. unfold terminal_shape.
    destruct d; exec; rewrite ?Hr, ?Hn; try discriminate;
      try (split; [reflexivity | intros; discriminate]);
      try (rewrite andb_false_r in *; discriminate).
    all: split; [reflexivity|]; intros _; split; [reflexivity|].
    apply andb_prop in Ec1. apply Ec1.
Qed.

Lemma spin_terminal_shape (ds : list Delivery) :
  terminal_shape (final (spin ds) init).
Proof.
  apply (spin_invariant terminal_shape (fun _ => True)).
  - intros d s Hs. split; [apply dispatch_terminal_shape; exact Hs|].
    apply Forall_forall. intros; exact I.
  - split; [reflexivity | intros; discriminate].
Qed.

(** X7: in every run [destroy_node] has been called once if the target has
    been reached and not at all otherwise, and a run that has reached the
    target ends with [distance_correct] [True] and [angle_correct] [False]:
    the flag pair that allowed the termination is not what the final state
    shows. *)
Theorem run_ends_in_terminal_shape (ds : list Delivery) :
  destroy_node_calls (final (spin ds) init)
  = (if target_reached (final (spin ds) init) then 1 else 0)%nat
  /\ (target_reached (final (spin ds) init) = true ->
      angle_correct (final (spin ds) init) = false
      /\ distance_correct (final (spin ds) init) = true).
Proof. apply (spin_terminal_shape ds). Qed.

(** X8: runs compose: handling [ds1] then [ds2] is handling [ds2] from the
    state [ds1] leaves, with the writes of the two in sequence; and once
    [ds1] has reached the target, whatever is delivered afterwards changes
    neither the final state nor the list of writes. *)
Theorem runs_compose_and_stop (ds1 ds2 : list Delivery) (s : State) :
  final (spin (ds1 ++ ds2)) s = final (spin ds2) (final (spin ds1) s)
  /\ path (spin (ds1 ++ ds2)) s
     = path (spin ds1) s ++ path (spin ds2) (final (spin ds1) s)
  /\ (target_reached (final (spin ds1) s) = true ->
      final (spin (ds1 ++ ds2)) s = final (spin ds1) s
      /\ path (spin (ds1 ++ ds2)) s = path (spin ds1) s).
Proof.
  split; [apply spin_app_final|]. split; [apply spin_app_path|].
  intros Hr. rewrite spin_app_final, spin_app_path.
  pose proof (spin_reached ds2 _ Hr) as Hs.
  unfold final at 1. unfold path at 2. rewrite Hs. cbn [fst snd].
  rewrite app_nil_r. split; reflexivity.
Qed.

(** X9: in every run [target_reached] rises at most once; it has risen
    exactly when the run ends with it set; and every rise is followed by
    exactly one [publish], the one at the end of the distance callback that
    performed it. *)
Theorem termination_is_unique (ds : list Delivery) :
  (count_steps rising init (path (spin ds) init) <= 1)%nat
  /\ count_steps rising init (path (spin ds) init)
     = (if target_reached (final (spin ds) init) then 1 else 0)%nat
  /\ count_steps late_publishing init (path (spin ds) init)
     = count_steps rising init (path (spin ds) init)
  /\ Forall (fun w => target_reached (fst w) = true ->
                      target_reached (snd w) = true)
            (steps init (path (spin ds) init)).
Proof.
  destruct (spin_rise_count ds init eq_refl) as [H1 H2].
  split; [|split; [exact H1|split]].
  - rewrite H1. destruct (target_reached (final (spin ds) init));
      [apply le_n | apply Nat.le_0_l].
  - rewrite H1, H2. reflexivity.
  - apply (spin_invariant (fun _ => True)
             (fun w => target_reached (fst w) = true ->
                       target_reached (snd w) = true)); [|exact I].
    intros d s _. split; [exact I | apply dispatch_keeps_reached].
Qed.

(** ** What the commands look like *)

(** X10: a command published by the distance callback has positive linear
    velocity only for a distance error above 0.3: whenever the error is at
    most 0.3 the linear velocity commanded is zero or negative, whatever the
    PID returned. *)
Theorem forward_only_beyond_band (msg : Msg.Vector3) (s : State) :
  Forall (fun t => (Msg.x msg - 13.0 <= 0.3 -> linear_x t <= 0)
                   /\ (0 < linear_x t -> 0.3 < Msg.x msg - 13.0))
         (issued (OnDistance msg) s).
Proof.
  unfold issued. cbn [dispatch]. exec; issued_value; each_step;
    unfold linear_x, Py.gt in *; cbn;
    (destruct (Py.lt 0.3 (Msg.x msg - 13.0)) eqn:Eg;
     [| destruct (Py.lt (Py.max (Py.min u 0.2) (- 0.2)) 0) eqn:El]);
    cbn in *; try discriminate; order_facts; split; intros; lra.
Qed.

(** X11: each loop commands its own axis only: every command of the
    distance callback has all three angular components and the linear y and
    z components equal to [0.0], and every command of the angle callback has
    all three linear components and the angular x and y components equal to
    [0.0]. *)
Theorem each_loop_commands_its_own_axis (msg : Msg.Vector3) (s : State) :
  Forall (fun t => Msg.angular t = Msg.Vector3_new
                   /\ Msg.y (Msg.linear t) = 0.0
                   /\ Msg.z (Msg.linear t) = 0.0)
         (issued (OnDistance msg) s)
  /\ Forall (fun t => Msg.linear t = Msg.Vector3_new
                      /\ Msg.x (Msg.angular t) = 0.0
                      /\ Msg.y (Msg.angular t) = 0.0)
            (issued (OnAngle msg) s).
Proof.
  unfold issued. cbn [dispatch].
  split; exec; issued_value; each_step; repeat split; reflexivity.
Qed.

(** ** What the callbacks leave alone *)

Lemma dispatch_unused_flags (d : Delivery) (s : State) :
  distance_condition_met (final (dispatch d) s) = distance_condition_met s
  /\ angle_condition_met (final (dispatch d) s) = angle_condition_met s
  /\ keyboard_interrupt_occurred (final (dispatch d) s)
     = keyboard_interrupt_occurred s.
Proof. destruct d; exec; repeat split; reflexivity. Qed.

Lemma spin_unused_flags (ds : list Delivery) :
  distance_condition_met (final (spin ds) init) = false
  /\ angle_condition_met (final (spin ds) init) = false
  /\ keyboard_interrupt_occurred (final (spin ds) init) = false.
Proof.
  apply (spin_invariant
           (fun s => distance_condition_met s = false
                     /\ angle_condition_met s = false
                     /\ keyboard_interrupt_occurred s = false)
           (fun _ => True)).
  - intros d s (H1 & H2 & H3).
    destruct (dispatch_unused_flags d s) as (E1 & E2 & E3).
    rewrite E1, E2, E3. split; [repeat split; assumption|].
    apply Forall_forall. intros; exact I.
  - repeat split; reflexivity.
Qed.

(** X12: the distance callback never touches the orientation log, the turn
    counters or the orientation PID; the angle callback never touches
    [time], the distance log, the distance PID or [distance_correct]; and no
    callback writes [distance_condition_met], [angle_condition_met] or
    [keyboard_interrupt_occurred], which are [False] at the end of every
    run. *)
Theorem callbacks_frame :
  (forall (msg : Msg.Vector3) (s : State),
     orientation_errors (final (distance_callback msg) s)
     = orientation_errors s
     /\ left_turns (final (distance_callback msg) s) = left_turns s
     /\ right_turns (final (distance_callback msg) s) = right_turns s
     /\ pid_orientation (final (distance_callback msg) s)
        = pid_orientation s)
  /\ (forall (msg : Msg.Vector3) (s : State),
        time (final (angles_callback msg) s) = time s
        /\ distance_errors (final (angles_callback msg) s)
           = distance_errors s
        /\ pid_distance (final (angles_callback msg) s) = pid_distance s
        /\ distance_correct (final (angles_callback msg) s)
           = distance_correct s)
  /\ (forall ds : list Delivery,
        distance_condition_met (final (spin ds) init) = false
        /\ angle_condition_met (final (spin ds) init) = false
        /\ keyboard_interrupt_occurred (final (spin ds) init) = false).
Proof.
  split; [|split].
  - intros msg s. exec; repeat split; reflexivity.
  - intros msg s. exec; repeat split; reflexivity.
  - apply spin_unused_flags.
Qed.

(** ** The direction of a correction *)

(** X13: for an angle sample outside the dead band processed before
    termination, the command is the negated clamped PID output, so a
    positive PID output commands a negative angular velocity and counts one
    left turn, a negative output commands a positive angular velocity and
    counts one right turn, and a zero output commands no rotation and counts
    nothing; in all three cases [angle_correct] is [False] afterwards and
    the run does not terminate. *)
Theorem correction_direction (msg : Msg.Vector3) (s : State) (u : Q)
        (p : PID) :
  target_reached s = false ->
  in_dead_band (Msg.y msg) = false ->
  PID_call (pid_orientation s) (Msg.y msg) = (u, p) ->
  let after := final (angles_callback msg) s in
  let twist_angular_z := - Py.max (Py.min u 0.1) (- 0.1) in
  issued (OnAngle msg) s
  = [Msg.set_angular_z twist_angular_z Msg.Twist_new]
  /\ pid_orientation after = p
  /\ angle_correct after = false
  /\ target_reached after = false
  /\ (0 < u ->
      twist_angular_z < 0
      /\ left_turns after = (left_turns s + 1)%Z
      /\ right_turns after = right_turns s)
  /\ (u < 0 ->
      0 < twist_angular_z
      /\ right_turns after = (right_turns s + 1)%Z
      /\ left_turns after = left_turns s)
  /\ (u == 0 ->
      twist_angular_z == 0
      /\ left_turns after = left_turns s
      /\ right_turns after = right_turns s).
Proof.
  intros Hr Hb Hpid after z. subst after.
  assert (Ha : 0 <= 0.1) by (cbv; discriminate).
  destruct (clamp_bounds u 0.1 Ha) as [Hlo Hhi].
  assert (Hsign : (0 < u -> z < 0) /\ (u < 0 -> 0 < z) /\ (u == 0 -> z == 0)).
  { subst z. unfold Py.max, Py.min, Py.gt.
    destruct (Py.lt 0.1 u) eqn:E1;
      [destruct (Py.lt 0.1 (- 0.1)) eqn:E2
      | destruct (Py.lt u (- 0.1)) eqn:E2];
      order_facts; repeat split; intros; lra. }
  destruct Hsign as (Hp & Hn & Hz).
  unfold in_dead_band in Hb.
  unfold issued, final. cbn [dispatch].
  unfold angles_callback, call_pid_orientation, check_target_reached, bind,
    get, assign, ret, publish, destroy_node.
  cbn. rewrite Hr. cbn. rewrite Hb, Hpid. cbn. fold z.
  unfold Py.gt.
  destruct (Py.lt z 0.0) eqn:El; [|destruct (Py.lt 0.0 z) eqn:Eg]; cbn;
    rewrite ?andb_false_r; cbn; rewrite ?Hr, ?skipn_length_app;
    order_facts;
    (split; [reflexivity|]); (split; [reflexivity|]);
    (split; [reflexivity|]); (split; [reflexivity|]);
    (split; [intros Hu; specialize (Hp Hu)
            | split; intros Hu;
              [specialize (Hn Hu) | specialize (Hz Hu)]]);
    first [ split; [assumption | split; reflexivity]
          | exfalso; lra ].
Qed.

(** X14: after an angle sample processed before termination,
    [angle_correct] is exactly whether that sample lies in the dead band
    [0 < |v| <= 0.055]; a sample of exactly zero is outside the band and
    clears the flag; a sample and its opposite are treated alike; and a
    distance sample that does not terminate the run leaves [angle_correct]
    as it was. *)
Theorem angle_flag_follows_last_sample :
  (forall (msg : Msg.Vector3) (s : State),
     target_reached s = false ->
     angle_correct (final (angles_callback msg) s)
     = in_dead_band (Msg.y msg))
  /\ (forall v : Q,
        (in_dead_band v = true <-> 0 < Qabs v /\ Qabs v <= 0.055)
        /\ in_dead_band (- v) = in_dead_band v
        /\ (v == 0 -> in_dead_band v = false))
  /\ (forall (msg : Msg.Vector3) (s : State),
        target_reached (final (distance_callback msg) s) = false ->
        angle_correct (final (distance_callback msg) s) = angle_correct s).
Proof.
  split; [|split].
  - intros msg s Hr. unfold in_dead_band.
    exec; try reflexivity; try (rewrite Hr in *; discriminate).
  - intros v. unfold in_dead_band. split; [|split].
    + rewrite andb_true_iff, lt_true_iff, le_true_iff. reflexivity.
    + assert (Ho : Qabs (- v) = Qabs v).
      { destruct v as [n d]. unfold Qabs, Qopp. cbn.
        rewrite Z.abs_opp. reflexivity. }
      rewrite Ho. reflexivity.
    + intros Hv. destruct (Py.lt 0 (Qabs v)) eqn:E; [|reflexivity].
      apply lt_true_iff in E. exfalso.
      assert (Ha : Qabs v == 0) by (rewrite Hv; reflexivity). lra.
  - intros msg s. exec; intros Hx; try reflexivity; discriminate.
Qed.

(** ** [main] *)


End Properties.

(** * The model on concrete runs *)

(** The state in which [run_reach] ends: the target has been reached. *)
Definition reached : Controller SimplePid.pid := final (spin run_reach) start.

(** The last write of a run, as the pair of states around it. *)
Definition last_write (l : list (Controller SimplePid.pid))
  : Controller SimplePid.pid * Controller SimplePid.pid :=
  last (steps start l) (start, start).

(** The scenario of three angle samples [0.2; -0.15; 0.03]: one turn each
    way, then the dead band. *)
Example run_turns_counts :
  right_turns (final (spin run_turns) start) = 1%Z
  /\ left_turns (final (spin run_turns) start) = 1%Z
  /\ angle_correct (final (spin run_turns) start) = true
  /\ length (corrections run_turns start) = 2%nat.
Proof. vm_compute. repeat split; reflexivity. Qed.

(** [run_reach] does reach the target, through the distance callback. *)
Example run_reach_terminates :
  target_reached reached = true
  /\ target_reached (final (spin (firstn 2 run_reach)) start) = false
  /\ destroy_node_calls reached = 1%nat.
Proof. vm_compute. repeat split; reflexivity. Qed.

(** C1 on [run_reach]: [target_reached] rises once, in the third delivery;
    the last write of the run is the [publish] at the end of that distance
    callback, executed when [target_reached] is already [True] and
    [destroy_node] has been called, and it hands a command of linear
    velocity [-0.2] to the publisher. *)
Theorem run_reach_publishes_after_target :
  count_steps rising start (path (spin run_reach) start) = 1%nat
  /\ count_steps late_publishing start (path (spin run_reach) start) = 1%nat
  /\ snd (last_write (path (spin run_reach) start)) = reached
  /\ target_reached (fst (last_write (path (spin run_reach) start))) = true
  /\ destroy_node_calls (fst (last_write (path (spin run_reach) start)))
     = 1%nat
  /\ late_publishing (last_write (path (spin run_reach) start)) = true
  /\ issued (OnDistance (sample 13.2))
            (final (spin (firstn 2 run_reach)) start)
     = [Msg.set_linear_x (- 0.2) Msg.Twist_new].
Proof. vm_compute. repeat split; reflexivity. Qed.

(** C4 as stated fails on [run_near]: the sample 13.2 is processed before
    termination, the clamped control signal is not negative, the distance
    error 0.2 lies in [0, 0.3], the condition of the second branch is false,
    and yet a command is published. *)
Lemma near_sample_is_published :
  target_reached start = false
  /\ 0 <= Py.max (Py.min (fst (PID_call (pid_distance start) (13.2 - 13.0)))
                         0.2) (- 0.2)
  /\ 13.2 - 13.0 <= 0.3
  /\ 0 <= 13.2 - 13.0
  /\ Py.truthy (Py.abs_bool (Py.lt (13.2 - 13.0) 0)) = false
  /\ issued (OnDistance (sample 13.2)) start <> [].
Proof.
  repeat split; try reflexivity; try (vm_compute; discriminate).
Qed.

Lemma distance_sample_outside_branches_witness :
  issued (OnDistance (sample 13.2)) start = [Msg.Twist_new]
  /\ distance_correct (final (distance_callback (sample 13.2)) start) = false.
Proof.
  destruct (distance_sample_outside_branches
              (sample 13.2) start
              (fst (PID_call (pid_distance start) (13.2 - 13.0)))
              (snd (PID_call (pid_distance start) (13.2 - 13.0))))
    as (Hi & _ & _ & Hd & _).
  - reflexivity.
  - reflexivity.
  - vm_compute; discriminate.
  - vm_compute; discriminate.
  - vm_compute; discriminate.
  - split; [exact Hi | exact Hd].
Defined.

Lemma distance_second_branch_witness :
  issued (OnDistance (sample 8.0)) start
  = [Msg.set_linear_x (- Py.max (Py.min
        (fst (PID_call (pid_distance start) (8.0 - 13.0))) 0.2) (- 0.2))
       Msg.Twist_new]
  /\ distance_correct (final (distance_callback (sample 8.0)) start) = false.
Proof.
  destruct (distance_second_branch
              (sample 8.0) start
              (fst (PID_call (pid_distance start) (8.0 - 13.0)))
              (snd (PID_call (pid_distance start) (8.0 - 13.0))))
    as (_ & _ & Hneg & _).
  - reflexivity.
  - reflexivity.
  - vm_compute; discriminate.
  - vm_compute; discriminate.
  - destruct Hneg as (_ & Hd & Hi & _).
    + vm_compute; reflexivity.
    + split; [exact Hi | exact Hd].
Defined.

Lemma dead_band_sample_witness :
  issued (OnAngle (sample 0.03)) start
  = [Msg.set_angular_z 0.0 Msg.Twist_new]
  /\ angle_correct (final (angles_callback (sample 0.03)) start) = true.
Proof.
  destruct (dead_band_sample (sample 0.03) start)
    as (Hc & Hi & _ & Ha & _).
  - reflexivity.
  - vm_compute; reflexivity.
  - vm_compute; discriminate.
  - split; [exact Hi|].
    unfold final. rewrite Hc. exact Ha.
Defined.

Lemma callback_after_target_is_noop_witness :
  target_reached reached = true
  /\ distance_callback (sample 20.0) reached = (tt, reached, [])
  /\ angles_callback (sample 20.0) reached = (tt, reached, []).
Proof.
  split; [reflexivity|].
  destruct (callback_after_target_is_noop (sample 20.0) reached)
    as (Hd & Ha & _).
  - reflexivity.
  - split; [exact Hd | exact Ha].
Defined.

(** The state of [run_reach] before its last delivery: the orientation has
    settled and the integral term of the distance PID is negative. *)
Definition before_reach : Controller SimplePid.pid :=
  final (spin (firstn 2 run_reach)) start.

Lemma distance_termination_condition_witness :
  target_reached (final (distance_callback (sample 13.2)) before_reach) = true
  /\ issued (OnDistance (sample 13.2)) before_reach
     = [Msg.set_linear_x (- 0.2) Msg.Twist_new].
Proof.
  destruct (distance_termination_condition
              (sample 13.2) before_reach
              (fst (PID_call (pid_distance before_reach) (13.2 - 13.0)))
              (snd (PID_call (pid_distance before_reach) (13.2 - 13.0))))
    as [Ht Hc].
  - reflexivity.
  - reflexivity.
  - split; [rewrite Ht; vm_compute; reflexivity|].
    vm_compute; reflexivity.
Defined.

Lemma correction_direction_witness :
  right_turns (final (angles_callback (sample 0.2)) start) = 1%Z
  /\ left_turns (final (angles_callback (sample 0.2)) start) = 0%Z
  /\ angle_correct (final (angles_callback (sample 0.2)) start) = false.
Proof.
  destruct (correction_direction
              (sample 0.2) start
              (fst (PID_call (pid_orientation start) 0.2))
              (snd (PID_call (pid_orientation start) 0.2)))
    as (_ & _ & Ha & _ & _ & Hneg & _).
  - reflexivity.
  - reflexivity.
  - reflexivity.
  - destruct Hneg as (_ & Hr & Hl).
    + vm_compute; reflexivity.
    + split; [exact Hr|]. split; [exact Hl | exact Ha].
Defined.
